(** * Shape sample programs of ts-nes: a shallow embedding and its properties

    The repository ships two Python sample programs that the editor feeds to
    its suggestion engine:

    - [src/ts/sample-files/enhanced-shapes.py]: shapes with a colour tag and
      validating constructors, and a [ShapeCalculator] with totals, the
      largest shape and a colour filter (module [EnhancedShapes] below);
    - [src/ts/sample-files/shapes.py]: shapes without colour and without
      validation, a [ShapeCalculator] with totals and [get_statistics], and
      [MathUtils] (module [Shapes] below).

    [src/ts/output/enhanced-shapes-improved.py] is a copy of the first file
    that is cut off inside [Circle.__init__]; it defines no further behaviour
    and is not modelled.

    Python [float] values are idealised as real numbers: rounding, infinities,
    NaN and the range of a double are outside this model.  Python exceptions
    are results of type [py A]: a value, or a raised exception. *)

From Stdlib Require Import Reals Lra Lia ZArith Znumtheory List String Ascii Bool.
From Stdlib Require Import DecimalString.
From Equations Require Import Equations.
Import ListNotations.

(** ** The Python fragment the programs use *)

Module Py.

(** Exceptions the programs and their builtins can raise. *)
Inductive exn : Type :=
| ValueError (msg : string)
| ZeroDivisionError (msg : string).

(** The outcome of a call: it returns, or it raises. *)
Inductive py (A : Type) : Type :=
| Ok (a : A)
| Raise (e : exn).
Arguments Ok {A} a.
Arguments Raise {A} e.

Definition ret {A : Type} (a : A) : py A := Ok a.

Definition bind {A B : Type} (c : py A) (k : A -> py B) : py B :=
  match c with
  | Ok a => k a
  | Raise e => Raise e
  end.

Declare Scope py_scope.
Delimit Scope py_scope with py.
Notation "x <- c ;; k" := (bind c (fun x => k))
  (at level 61, c at next level, right associativity) : py_scope.

(** Values stored in the dictionaries the programs return. *)
Inductive pyval : Type :=
| PyInt (n : Z)
| PyFloat (x : R).

(** A [dict] with string keys, in insertion order. *)
Definition dict : Type := list (string * pyval).

(** [x <= y] on floats. *)
Definition Rleb (x y : R) : bool := if Rle_dec x y then true else false.

(** [not xs] for a list. *)
Definition is_empty {A : Type} (l : list A) : bool :=
  match l with
  | [] => true
  | _ :: _ => false
  end.

(** [len(xs)]. *)
Definition py_len {A : Type} (l : list A) : Z := Z.of_nat (List.length l).

(** [sum(xs)]: starts from 0 and adds the elements from left to right. *)
Definition py_sum (l : list R) : R := fold_left Rplus l 0%R.

(** [x / n] for a float and an int. *)
Definition truediv (x : R) (n : Z) : py R :=
  if (n =? 0)%Z then Raise (ZeroDivisionError "float division by zero")
  else Ok (x / IZR n)%R.

(** The loop of [max(xs, key=f)]: a later item replaces the current one only
    when its key is strictly greater. *)
Fixpoint max_loop {A : Type} (key : A -> R) (l : list A) (maxitem : A) : A :=
  match l with
  | [] => maxitem
  | item :: l' =>
      if Rlt_dec (key maxitem) (key item)
      then max_loop key l' item
      else max_loop key l' maxitem
  end.

Definition py_max_key {A : Type} (key : A -> R) (l : list A) : py A :=
  match l with
  | [] => Raise (ValueError "max() arg is an empty sequence")
  | item :: l' => Ok (max_loop key l' item)
  end.

(** [max(xs)]. *)
Definition py_max (l : list R) : py R := py_max_key (fun x => x) l.

(** The loop of [min(xs)]: a later item replaces the current one only when
    it is strictly smaller. *)
Fixpoint min_loop (l : list R) (minitem : R) : R :=
  match l with
  | [] => minitem
  | item :: l' =>
      if Rlt_dec item minitem
      then min_loop l' item
      else min_loop l' minitem
  end.

Definition py_min (l : list R) : py R :=
  match l with
  | [] => Raise (ValueError "min() arg is an empty sequence")
  | item :: l' => Ok (min_loop l' item)
  end.

(** Rounding to the nearest integer, ties to the even one. *)
Definition round_half_even (x : R) : Z :=
  let f := Int_part x in
  let d := (x - IZR f)%R in
  if Rlt_dec d (1 / 2) then f
  else if Rlt_dec (1 / 2) d then (f + 1)%Z
  else if Z.even f then f else (f + 1)%Z.

Definition decimal (n : Z) : string :=
  NilZero.string_of_uint (N.to_uint (Z.to_N n)).

(** The format specification [:.2f]: sign, integer part, a point and two
    decimals of the value rounded to hundredths. *)
Definition format_2f (x : R) : string :=
  let n := round_half_even (Rabs x * 100) in
  ((if Rlt_dec x 0 then "-" else "")
     ++ decimal (n / 100) ++ "."
     ++ decimal (n mod 100 / 10) ++ decimal (n mod 10))%string.

(** [xs[i]]: a negative index counts from the end; [None] stands for the
    [IndexError] of an index out of range. *)
Definition py_index {A : Type} (l : list A) (i : Z) : option A :=
  let n := Z.of_nat (List.length l) in
  if (i <? 0)%Z
  then (if (i + n <? 0)%Z then None else nth_error l (Z.to_nat (i + n)))
  else nth_error l (Z.to_nat i).

Fixpoint range_from (start : Z) (count : nat) : list Z :=
  match count with
  | O => []
  | S count' => start :: range_from (start + 1) count'
  end.

(** [range(start, stop)]. *)
Definition py_range (start stop : Z) : list Z :=
  range_from start (Z.to_nat (stop - start)).



End Py.

(** ** enhanced-shapes.py *)

Module EnhancedShapes.
Import Py.
Local Open Scope R_scope.
Local Open Scope py_scope.

(** The fields [Shape.__init__] sets. *)
Record ShapeBase : Type := mkShapeBase {
  name : string;
  color : string;
  _created_at : option unit
}.

(** The concrete subclasses of the abstract class [Shape]. *)
Inductive Shape : Type :=
| Circle (base : ShapeBase) (radius : R)
| Rectangle (base : ShapeBase) (width height : R).

Definition base (self : Shape) : ShapeBase :=
  match self with
  | Circle b _ => b
  | Rectangle b _ _ => b
  end.

Definition Shape_init (name color : string) : ShapeBase :=
  {| name := name; color := color; _created_at := None |}.

(** [Circle.__init__]. *)
Definition Circle_init (radius : R) (color : string) : py Shape :=
  let b := Shape_init "Circle" color in
  if Rleb radius 0 then Raise (ValueError "Radius must be positive")
  else Ok (Circle b radius).

(** [Rectangle.__init__]. *)
Definition Rectangle_init (width height : R) (color : string) : py Shape :=
  let b := Shape_init "Rectangle" color in
  if Rleb width 0 || Rleb height 0
  then Raise (ValueError "Width and height must be positive")
  else Ok (Rectangle b width height).

(** The default value of the parameter [color]. *)
Definition default_color : string := "white".

Definition area (self : Shape) : R :=
  match self with
  | Circle _ radius => PI * radius ^ 2
  | Rectangle _ width height => width * height
  end.

Definition perimeter (self : Shape) : R :=
  match self with
  | Circle _ radius => 2 * PI * radius
  | Rectangle _ width height => 2 * (width + height)
  end.

(** [Shape.__str__]. *)
Definition Shape_str (self : Shape) : string :=
  (name (base self) ++ " (" ++ color (base self) ++ "): area="
     ++ format_2f (area self) ++ ", perimeter="
     ++ format_2f (perimeter self))%string.

Record ShapeCalculator : Type := mkShapeCalculator {
  shapes : list Shape
}.

Definition ShapeCalculator_init : ShapeCalculator := {| shapes := [] |}.

(** [add_shape] returns nothing; the result is the calculator after the
    call. *)
Definition add_shape (self : ShapeCalculator) (shape : Shape)
  : py ShapeCalculator :=
  ret {| shapes := shapes self ++ [shape] |}.

Definition total_area (self : ShapeCalculator) : py R :=
  ret (py_sum (map area (shapes self))).

Definition total_perimeter (self : ShapeCalculator) : py R :=
  ret (py_sum (map perimeter (shapes self))).

Definition get_largest_shape (self : ShapeCalculator) : py (option Shape) :=
  if is_empty (shapes self) then ret None
  else
    s <- py_max_key area (shapes self) ;;
    ret (Some s).

Definition filter_by_color (self : ShapeCalculator) (c : string)
  : py (list Shape) :=
  ret (filter (fun shape => String.eqb (color (base shape)) c) (shapes self)).

Definition create_sample_shapes : py (list Shape) :=
  s1 <- Circle_init 5 "red" ;;
  s2 <- Rectangle_init 4 6 "blue" ;;
  s3 <- Circle_init 3 "green" ;;
  s4 <- Rectangle_init 2 8 "red" ;;
  ret [s1; s2; s3; s4].




(** The loop [for shape in ...: calculator.add_shape(shape)] of the main
    block, without its printing. *)
Fixpoint add_all (self : ShapeCalculator) (l : list Shape) : py ShapeCalculator :=
  match l with
  | [] => ret self
  | shape :: l' => self' <- add_shape self shape ;; add_all self' l'
  end.

(** A shape that a call of one of the two constructors returned. *)
Definition constructed (s : Shape) : Prop :=
  (exists radius c, Circle_init radius c = Ok s)
  \/ (exists width height c, Rectangle_init width height c = Ok s).

End EnhancedShapes.

(** ** shapes.py *)

Module Shapes.
Import Py.
Local Open Scope R_scope.
Local Open Scope py_scope.

(** The concrete subclasses of the abstract class [Shape]; [name] is the
    field [Shape.__init__] sets. *)
Inductive Shape : Type :=
| Rectangle (name : string) (width height : R)
| Circle (name : string) (radius : R).

Definition name (self : Shape) : string :=
  match self with
  | Rectangle n _ _ => n
  | Circle n _ => n
  end.

(** [Rectangle.__init__]: stores its arguments. *)
Definition Rectangle_init (width height : R) : py Shape :=
  ret (Rectangle "Rectangle" width height).

(** [Circle.__init__]: stores its argument. *)
Definition Circle_init (radius : R) : py Shape :=
  ret (Circle "Circle" radius).

Definition area (self : Shape) : R :=
  match self with
  | Rectangle _ width height => width * height
  | Circle _ radius => PI * radius ^ 2
  end.

Definition perimeter (self : Shape) : R :=
  match self with
  | Rectangle _ width height => 2 * (width + height)
  | Circle _ radius => 2 * PI * radius
  end.

(** [Shape.__str__]. *)
Definition Shape_str (self : Shape) : string :=
  (name self ++ ": area=" ++ format_2f (area self)
     ++ ", perimeter=" ++ format_2f (perimeter self))%string.

Record ShapeCalculator : Type := mkShapeCalculator {
  shapes : list Shape
}.

Definition ShapeCalculator_init : ShapeCalculator := {| shapes := [] |}.

Definition add_shape (self : ShapeCalculator) (shape : Shape)
  : py ShapeCalculator :=
  ret {| shapes := shapes self ++ [shape] |}.

Definition total_area (self : ShapeCalculator) : py R :=
  ret (py_sum (map area (shapes self))).

Definition total_perimeter (self : ShapeCalculator) : py R :=
  ret (py_sum (map perimeter (shapes self))).

Definition get_statistics (self : ShapeCalculator) : py dict :=
  if is_empty (shapes self) then
    ret [("count"%string, PyInt 0); ("total_area"%string, PyInt 0);
         ("total_perimeter"%string, PyInt 0)]
  else
    let areas := map area (shapes self) in
    let perimeters := map perimeter (shapes self) in
    average_area <- truediv (py_sum areas) (py_len areas) ;;
    average_perimeter <- truediv (py_sum perimeters) (py_len perimeters) ;;
    max_area <- py_max areas ;;
    min_area <- py_min areas ;;
    ret [("count"%string, PyInt (py_len (shapes self)));
         ("total_area"%string, PyFloat (py_sum areas));
         ("total_perimeter"%string, PyFloat (py_sum perimeters));
         ("average_area"%string, PyFloat average_area);
         ("average_perimeter"%string, PyFloat average_perimeter);
         ("max_area"%string, PyFloat max_area);
         ("min_area"%string, PyFloat min_area)].

(** The loop [for shape in shapes: calculator.add_shape(shape)] of [main],
    without its printing. *)
Fixpoint add_all (self : ShapeCalculator) (l : list Shape) : py ShapeCalculator :=
  match l with
  | [] => ret self
  | shape :: l' => self' <- add_shape self shape ;; add_all self' l'
  end.

(** [MathUtils.gcd]: the loop [while b: a, b = b, a % b] and the final
    [abs(a)].  Python's [%] on integers takes the sign of the divisor, as
    [Z.modulo] does. *)
Module MathUtils.
Local Open Scope Z_scope.

Equations? gcd (a b : Z) : Z by wf (Z.abs_nat b) lt :=
  gcd a b with Z.eq_dec b 0 => {
    | left _ := Z.abs a;
    | right _ := gcd b (a mod b) }.
Proof.
  destruct (Z_lt_le_dec 0 b).
  - pose proof (Z.mod_pos_bound a b). lia.
  - pose proof (Z.mod_neg_bound a b). lia.
Qed.

(** The loop [for i in range(2, n): fib.append(fib[i-1] + fib[i-2])] of
    [MathUtils.fibonacci]; [None] stands for an [IndexError]. *)
Fixpoint fib_loop (indices : list Z) (fib : list Z) : option (list Z) :=
  match indices with
  | [] => Some fib
  | i :: indices' =>
      match py_index fib (i - 1), py_index fib (i - 2) with
      | Some x, Some y => fib_loop indices' (fib ++ [x + y])
      | _, _ => None
      end
  end.

(** [MathUtils.fibonacci]. *)
Definition fibonacci (n : Z) : option (list Z) :=
  if n <=? 0 then Some []
  else if n =? 1 then Some [0]
  else if n =? 2 then Some [0; 1]
  else fib_loop (py_range 2 n) [0; 1].

End MathUtils.

End Shapes.

(** ** Vocabulary of the specification *)

Module Spec.
Import Py.
Local Open Scope R_scope.

(** A pair of constructors validates its parameters when a circle of
    non-positive radius and a rectangle with a non-positive side are
    refused. *)
Definition validates {S : Type}
  (circle : R -> py S) (rectangle : R -> R -> py S) : Prop :=
  (forall radius, radius <= 0 -> exists e, circle radius = Raise e)
  /\ (forall width height,
        width <= 0 \/ height <= 0 -> exists e, rectangle width height = Raise e).


(** [Subsequence l1 l2]: [l1] is [l2] with some elements left out, the
    others in their order. *)
Inductive Subsequence {A : Type} : list A -> list A -> Prop :=
| sub_done : Subsequence [] []
| sub_keep (x : A) (l1 l2 : list A) :
    Subsequence l1 l2 -> Subsequence (x :: l1) (x :: l2)
| sub_drop (x : A) (l1 l2 : list A) :
    Subsequence l1 l2 -> Subsequence l1 (x :: l2).



(** [s] is the first element of [l] at which [f] is greatest. *)
Definition first_maximal {A : Type} (f : A -> R) (l : list A) (s : A) : Prop :=
  exists l1 l2,
    l = l1 ++ s :: l2
    /\ Forall (fun x => f x < f s) l1
    /\ Forall (fun x => f x <= f s) l2.






(** The Fibonacci numbers 0, 1, 1, 2, 3, 5, ... *)
Fixpoint fib (n : nat) : Z :=
  match n with
  | O => 0%Z
  | S m => match m with
           | O => 1%Z
           | S k => (fib m + fib k)%Z
           end
  end.

(** The shape of shapes.py with the name and the dimensions of a shape of
    enhanced-shapes.py: the colour is dropped. *)
Definition plain (s : EnhancedShapes.Shape) : Shapes.Shape :=
  match s with
  | EnhancedShapes.Circle b radius =>
      Shapes.Circle (EnhancedShapes.name b) radius
  | EnhancedShapes.Rectangle b width height =>
      Shapes.Rectangle (EnhancedShapes.name b) width height
  end.

End Spec.

(** * Properties *)

(** ** MathUtils.gcd *)

Section Gcd.
Import Shapes.MathUtils.
Local Open Scope Z_scope.

Lemma gcd_Zgcd (a b : Z) : gcd a b = Z.gcd a b.
Proof.
  funelim (gcd a b).
  - subst. now rewrite Z.gcd_0_r.
  - match goal with IH : gcd _ _ = Z.gcd _ _ |- _ => rewrite IH end.
    rewrite (Z.gcd_comm b (a mod b)), Z.gcd_mod by assumption.
    apply Z.gcd_comm.
Qed.

Lemma gcd_nonneg (a b : Z) : 0 <= gcd a b.
Proof. rewrite gcd_Zgcd. apply Z.gcd_nonneg. Qed.

Lemma gcd_zero_iff (a b : Z) : gcd a b = 0 <-> a = 0 /\ b = 0.
Proof. rewrite gcd_Zgcd. apply Z.gcd_eq_0. Qed.

(** C10: for all integers [a] and [b], [MathUtils.gcd a b] is defined (the
    loop is a total function), it is non-negative, it divides [|a|] and
    [|b|], every common divisor of [|a|] and [|b|] divides it, unless both
    arguments are 0 it is positive and no common divisor is greater, and
    it is 0 when both arguments are 0. *)
Theorem gcd_spec (a b : Z) :
  0 <= gcd a b
  /\ (gcd a b | Z.abs a)
  /\ (gcd a b | Z.abs b)
  /\ (forall d, (d | Z.abs a) -> (d | Z.abs b) -> (d | gcd a b))
  /\ ((a, b) <> (0, 0) ->
      0 < gcd a b
      /\ forall d, (d | Z.abs a) -> (d | Z.abs b) -> d <= gcd a b)
  /\ ((a, b) = (0, 0) -> gcd a b = 0).
Proof.
  pose proof (gcd_nonneg a b) as Hnn.
  assert (Hgreatest : forall d, (d | Z.abs a) -> (d | Z.abs b) -> (d | gcd a b)).
  { intros d Ha Hb. rewrite gcd_Zgcd.
    apply Z.gcd_greatest; [now apply Z.divide_abs_r | now apply Z.divide_abs_r]. }
  repeat split; auto.
  - rewrite gcd_Zgcd. apply Z.divide_abs_r, Z.gcd_divide_l.
  - rewrite gcd_Zgcd. apply Z.divide_abs_r, Z.gcd_divide_r.
  - destruct (Z.eq_dec (gcd a b) 0) as [E|]; [|lia].
    apply gcd_zero_iff in E. destruct E; subst. now contradict H.
  - intros d Ha Hb.
    assert (gcd a b <> 0).
    { intro E. apply gcd_zero_iff in E. destruct E; subst. now contradict H. }
    apply Z.divide_pos_le; [lia | now apply Hgreatest].
  - intros E. injection E as -> ->. reflexivity.
Qed.

Lemma gcd_spec_witness :
  (48, 18) <> (0, 0)
  /\ (6 | Z.abs 48) /\ (6 | Z.abs 18)
  /\ 0 < gcd 48 18 /\ 6 <= gcd 48 18 /\ (6 | gcd 48 18)
  /\ gcd 0 0 = 0.
Proof.
  assert (H1 : (48, 18) <> (0, 0)) by discriminate.
  assert (Ha : (6 | Z.abs 48)) by (exists 8; reflexivity).
  assert (Hb : (6 | Z.abs 18)) by (exists 3; reflexivity).
  destruct (gcd_spec 48 18) as (_ & _ & _ & Hd & Hg & _).
  destruct (gcd_spec 0 0) as (_ & _ & _ & _ & _ & Hz).
  destruct (Hg H1) as [Hpos Hle].
  repeat split; auto.
Defined.

Example gcd_48_18 : gcd 48 18 = 6.
Proof. reflexivity. Qed.

Example gcd_negative_arguments :
  gcd (-48) 18 = 6 /\ gcd 48 (-18) = 6 /\ gcd (-48) (-18) = 6 /\ gcd 0 (-5) = 5.
Proof. repeat split; reflexivity. Qed.

End Gcd.

(** ** Construction of shapes *)

Section Construction.
Import Py Spec.
Local Open Scope R_scope.

Lemma Rleb_true (x y : R) : x <= y -> Rleb x y = true.
Proof. intros H. unfold Rleb. destruct (Rle_dec x y); [reflexivity | contradiction]. Qed.

Lemma Rleb_false (x y : R) : y < x -> Rleb x y = false.
Proof. intros H. unfold Rleb. destruct (Rle_dec x y); [lra | reflexivity]. Qed.

(** [Circle.__init__] of enhanced-shapes.py raises exactly on a radius
    that is not positive. *)
Lemma enhanced_Circle_init_raises (radius : R) (c : string) :
  radius <= 0 ->
  EnhancedShapes.Circle_init radius c
  = Raise (ValueError "Radius must be positive").
Proof.
  intros H. unfold EnhancedShapes.Circle_init. now rewrite Rleb_true.
Qed.

Lemma enhanced_Circle_init_ok (radius : R) (c : string) :
  0 < radius ->
  EnhancedShapes.Circle_init radius c
  = Ok (EnhancedShapes.Circle (EnhancedShapes.Shape_init "Circle" c) radius).
Proof.
  intros H. unfold EnhancedShapes.Circle_init. now rewrite Rleb_false.
Qed.

Lemma enhanced_Rectangle_init_raises (width height : R) (c : string) :
  width <= 0 \/ height <= 0 ->
  EnhancedShapes.Rectangle_init width height c
  = Raise (ValueError "Width and height must be positive").
Proof.
  intros [H | H]; unfold EnhancedShapes.Rectangle_init.
  - now rewrite (Rleb_true width).
  - rewrite (Rleb_true height) by assumption. now rewrite orb_true_r.
Qed.

Lemma enhanced_Rectangle_init_ok (width height : R) (c : string) :
  0 < width -> 0 < height ->
  EnhancedShapes.Rectangle_init width height c
  = Ok (EnhancedShapes.Rectangle
          (EnhancedShapes.Shape_init "Rectangle" c) width height).
Proof.
  intros Hw Hh. unfold EnhancedShapes.Rectangle_init.
  now rewrite !Rleb_false.
Qed.

(** C1, as it holds: the constructors of enhanced-shapes.py raise
    [ValueError] on a circle of radius <= 0 and on a rectangle of width <= 0
    or height <= 0, so [Circle(0)], [Circle(-1)], [Rectangle(0,5)] and
    [Rectangle(5,-2)] fail, and they return the shape for strictly positive
    arguments; the constructors of shapes.py check nothing and return a
    shape for every argument. *)
Theorem construction_validation (radius width height : R) (c : string) :
  (radius <= 0 ->
     EnhancedShapes.Circle_init radius c
     = Raise (ValueError "Radius must be positive"))
  /\ (width <= 0 \/ height <= 0 ->
        EnhancedShapes.Rectangle_init width height c
        = Raise (ValueError "Width and height must be positive"))
  /\ (0 < radius ->
        EnhancedShapes.Circle_init radius c
        = Ok (EnhancedShapes.Circle (EnhancedShapes.Shape_init "Circle" c) radius))
  /\ (0 < width -> 0 < height ->
        EnhancedShapes.Rectangle_init width height c
        = Ok (EnhancedShapes.Rectangle
                (EnhancedShapes.Shape_init "Rectangle" c) width height))
  /\ (exists e, EnhancedShapes.Circle_init 0 c = Raise e)
  /\ (exists e, EnhancedShapes.Circle_init (-1) c = Raise e)
  /\ (exists e, EnhancedShapes.Rectangle_init 0 5 c = Raise e)
  /\ (exists e, EnhancedShapes.Rectangle_init 5 (-2) c = Raise e)
  /\ Shapes.Circle_init radius = Ok (Shapes.Circle "Circle" radius)
  /\ Shapes.Rectangle_init width height
     = Ok (Shapes.Rectangle "Rectangle" width height).
Proof.
  split; [apply enhanced_Circle_init_raises |].
  split; [apply enhanced_Rectangle_init_raises |].
  split; [apply enhanced_Circle_init_ok |].
  split; [apply enhanced_Rectangle_init_ok |].
  split; [eexists; apply enhanced_Circle_init_raises; lra |].
  split; [eexists; apply enhanced_Circle_init_raises; lra |].
  split; [eexists; apply enhanced_Rectangle_init_raises; left; lra |].
  split; [eexists; apply enhanced_Rectangle_init_raises; right; lra |].
  split; reflexivity.
Qed.

Lemma construction_validation_witness :
  EnhancedShapes.Circle_init (-1) "red"
  = Raise (ValueError "Radius must be positive")
  /\ EnhancedShapes.Rectangle_init 5 (-2) "blue"
     = Raise (ValueError "Width and height must be positive")
  /\ EnhancedShapes.Circle_init 5 "red"
     = Ok (EnhancedShapes.Circle (EnhancedShapes.Shape_init "Circle" "red") 5)
  /\ EnhancedShapes.Rectangle_init 4 6 "blue"
     = Ok (EnhancedShapes.Rectangle
             (EnhancedShapes.Shape_init "Rectangle" "blue") 4 6).
Proof.
  destruct (construction_validation (-1) 5 (-2) "red") as (H1 & _).
  destruct (construction_validation (-1) 5 (-2) "blue") as (_ & H2 & _).
  destruct (construction_validation 5 4 6 "red") as (_ & _ & H3 & _).
  destruct (construction_validation 5 4 6 "blue") as (_ & _ & _ & H4 & _).
  split; [apply H1; lra |].
  split; [apply H2; right; lra |].
  split; [apply H3; lra | apply H4; lra].
Defined.

(** C1 fails on shapes.py: [Circle(0)] is constructed. *)
Lemma shapes_Circle_zero_constructed :
  Shapes.Circle_init 0 = Ok (Shapes.Circle "Circle" 0)
  /\ ~ validates Shapes.Circle_init Shapes.Rectangle_init.
Proof.
  split; [reflexivity |].
  intros [Hc _]. destruct (Hc 0) as [e He]; [lra | discriminate He].
Qed.

Lemma enhanced_validates :
  validates (fun r => EnhancedShapes.Circle_init r EnhancedShapes.default_color)
            (fun w h => EnhancedShapes.Rectangle_init w h EnhancedShapes.default_color).
Proof.
  split.
  - intros r H. eexists. now apply enhanced_Circle_init_raises.
  - intros w h H. eexists. now apply enhanced_Rectangle_init_raises.
Qed.

End Construction.

(** ** The builtins *)

Section Builtins.
Import Py Spec.
Local Open Scope R_scope.




Lemma py_len_map {A B : Type} (f : A -> B) (l : list A) :
  py_len (map f l) = py_len l.
Proof. unfold py_len. now rewrite length_map. Qed.

Lemma truediv_ok (x : R) (n : Z) :
  n <> 0%Z -> truediv x n = Ok (x / IZR n).
Proof.
  intros H. unfold truediv. destruct (Z.eqb_spec n 0); [contradiction | reflexivity].
Qed.

Lemma truediv_zero (x : R) :
  truediv x 0 = Raise (ZeroDivisionError "float division by zero").
Proof. reflexivity. Qed.

Section MaxLoop.
Context {A : Type} (key : A -> R).

Lemma max_loop_first (l : list A) (m : A) :
  first_maximal key (m :: l) (max_loop key l m).
Proof.
  revert m. induction l as [| item l IH]; intros m; simpl.
  - exists [], []. repeat split; constructor.
  - destruct (Rlt_dec (key m) (key item)) as [Hlt | Hge].
    + destruct (IH item) as (l1 & l2 & E & H1 & H2).
      remember (max_loop key l item) as s eqn:Hs. clear Hs.
      exists (m :: l1), l2. split; [simpl; now rewrite E |].
      split; [| assumption].
      constructor; [| assumption].
      assert (key item <= key s).
      { assert (Hin : In item (l1 ++ s :: l2)) by (rewrite <- E; now left).
        apply in_app_or in Hin. destruct Hin as [Hin | [Hin | Hin]].
        - rewrite Forall_forall in H1. left. now apply H1.
        - rewrite <- Hin. right. reflexivity.
        - rewrite Forall_forall in H2. now apply H2. }
      lra.
    + destruct (IH m) as (l1 & l2 & E & H1 & H2).
      remember (max_loop key l m) as s eqn:Hs. clear Hs.
      destruct l1 as [| y l1]; simpl in E; injection E as Em El.
      * subst s l. exists [], (item :: l2).
        repeat split; constructor; [lra | assumption].
      * subst y l. exists (m :: item :: l1), l2.
        split; [reflexivity |]. split; [| assumption].
        inversion H1; subst.
        constructor; [assumption |]. constructor; [lra | assumption].
Qed.



Lemma first_maximal_unique (l1 l2 k1 k2 : list A) (s t : A) :
  l1 ++ s :: l2 = k1 ++ t :: k2 ->
  Forall (fun x => key x < key s) l1 ->
  Forall (fun x => key x <= key s) l2 ->
  Forall (fun x => key x < key t) k1 ->
  Forall (fun x => key x <= key t) k2 ->
  l1 = k1 /\ s = t /\ l2 = k2.
Proof.
  intros E H1 H2 K1 K2. revert k1 E K1.
  induction l1 as [| y l1 IH]; intros k1 E K1.
  - destruct k1 as [| z k1]; simpl in E.
    + injection E as Es El. now subst.
    + injection E as Es El. subst z l2.
      inversion K1 as [| ? ? Hst _]; subst.
      assert (key t <= key s).
      { rewrite Forall_forall in H2. apply H2, in_or_app. right. now left. }
      lra.
  - destruct k1 as [| z k1]; simpl in E.
    + injection E as Es El. subst y k2.
      inversion H1 as [| ? ? Hts _]; subst.
      assert (key s <= key t).
      { rewrite Forall_forall in K2. apply K2, in_or_app. right. now left. }
      lra.
    + injection E as Es El. subst z.
      inversion H1; inversion K1; subst.
      destruct (IH ltac:(assumption) k1 El ltac:(assumption)) as (-> & -> & ->).
      repeat split.
Qed.

End MaxLoop.



End Builtins.

(** ** enhanced-shapes.py: formulas and the calculator *)

Section EnhancedCalculator.
Import Py Spec EnhancedShapes.
Local Open Scope R_scope.



(** The formulas do not depend on how the object was obtained. *)
Lemma area_Circle (b : ShapeBase) (r : R) : area (Circle b r) = PI * r².
Proof. unfold Rsqr. simpl. ring. Qed.

Lemma constructed_positive (s : Shape) :
  constructed s -> 0 < area s /\ 0 < perimeter s.
Proof.
  intros [(r & c & H) | (w & h & c & H)].
  - unfold Circle_init, Rleb in H. destruct (Rle_dec r 0); [discriminate |].
    injection H as <-. pose proof PI_RGT_0 as Hpi.
    assert (Hr : 0 < r) by lra.
    pose proof (Rmult_lt_0_compat _ _ Hpi Hr).
    pose proof (Rmult_lt_0_compat _ _ Hr Hr).
    simpl. split; nra.
  - unfold Rectangle_init, Rleb in H.
    destruct (Rle_dec w 0); [discriminate |].
    destruct (Rle_dec h 0); [discriminate |].
    injection H as <-.
    assert (Hw : 0 < w) by lra. assert (Hh : 0 < h) by lra.
    pose proof (Rmult_lt_0_compat _ _ Hw Hh).
    simpl. split; lra.
Qed.


End EnhancedCalculator.

Section EnhancedCollection.
Import Py Spec EnhancedShapes.
Local Open Scope R_scope.

(** C9: [add_shape] returns normally for every calculator and every shape
    object, whether or not the shape is already held and whether or not a
    constructor would have accepted it; afterwards the sequence is the old
    one followed by the shape: one element longer, the old elements first
    and in their order, the shape last. *)
Theorem add_shape_spec (self : ShapeCalculator) (shape : Shape) :
  exists self',
    add_shape self shape = Ok self'
    /\ shapes self' = shapes self ++ [shape]
    /\ List.length (shapes self') = S (List.length (shapes self))
    /\ firstn (List.length (shapes self)) (shapes self') = shapes self
    /\ skipn (List.length (shapes self)) (shapes self') = [shape].
Proof.
  exists {| shapes := shapes self ++ [shape] |}. simpl.
  split; [reflexivity |]. split; [reflexivity |].
  split; [rewrite length_app; simpl; lia |].
  split.
  - rewrite firstn_app, Nat.sub_diag, firstn_all. simpl. apply app_nil_r.
  - rewrite skipn_app, Nat.sub_diag, skipn_all. reflexivity.
Qed.

(** An object with a negative radius, which no constructor returns, is
    added like any other, and twice when added twice. *)
Example add_shape_unvalidated_duplicate :
  let bad := Circle (Shape_init "Circle" "red") (-1) in
  ~ constructed bad
  /\ (c1 <- add_shape ShapeCalculator_init bad ;; add_shape c1 bad)%py
     = Ok {| shapes := [bad; bad] |}.
Proof.
  split; [| reflexivity].
  intros H. apply constructed_positive in H. destruct H as [_ H].
  simpl in H. pose proof PI_RGT_0. nra.
Qed.

Lemma Subsequence_refl {A : Type} (l : list A) : Subsequence l l.
Proof. induction l; constructor; assumption. Qed.

Lemma Subsequence_filter {A : Type} (f : A -> bool) (l : list A) :
  Subsequence (filter f l) l.
Proof.
  induction l as [| x l IH]; simpl.
  - constructor.
  - destruct (f x); constructor; assumption.
Qed.

Lemma Subsequence_filter_greatest {A : Type} (f : A -> bool) (l' l : list A) :
  Subsequence l' l -> Forall (fun x => f x = true) l' ->
  Subsequence l' (filter f l).
Proof.
  induction 1 as [| x l1 l2 Hsub IH | x l1 l2 Hsub IH]; intros Hall; simpl.
  - constructor.
  - inversion Hall as [| ? ? Hx Hrest]; subst. rewrite Hx.
    constructor. now apply IH.
  - destruct (f x); [constructor |]; now apply IH.
Qed.

(** C6: for every collection and colour [c], [filter_by_color] returns a
    subsequence of the collection (so the insertion order is kept) in
    which a shape occurs exactly when it is in the collection with colour
    [c], and which contains every subsequence of the collection whose
    shapes all have colour [c]; it is empty exactly when no shape of the
    collection has colour [c]. *)
Theorem filter_by_color_spec (self : ShapeCalculator) (c : string) :
  exists result,
    filter_by_color self c = Ok result
    /\ Subsequence result (shapes self)
    /\ (forall s, In s result <-> In s (shapes self) /\ color (base s) = c)
    /\ (forall l, Subsequence l (shapes self) ->
                  Forall (fun s => color (base s) = c) l ->
                  Subsequence l result)
    /\ (result = [] <-> forall s, In s (shapes self) -> color (base s) <> c).
Proof.
  set (f := fun shape : Shape => String.eqb (color (base shape)) c).
  exists (filter f (shapes self)).
  assert (Hin : forall s, In s (filter f (shapes self))
                          <-> In s (shapes self) /\ color (base s) = c).
  { intros s. rewrite filter_In. unfold f. now rewrite String.eqb_eq. }
  split; [reflexivity |].
  split; [apply Subsequence_filter |].
  split; [exact Hin |].
  split.
  - intros l Hsub Hall. apply Subsequence_filter_greatest; [assumption |].
    eapply Forall_impl; [| exact Hall]. intros s Hs. unfold f.
    now apply String.eqb_eq.
  - split.
    + intros E s Hs Hc.
      assert (H : In s (filter f (shapes self))) by (apply Hin; now split).
      rewrite E in H. destruct H.
    + intros H. destruct (filter f (shapes self)) as [| s r] eqn:E; [reflexivity |].
      destruct (proj1 (Hin s) (or_introl eq_refl)) as [Hs Hc].
      now destruct (H s Hs).
Qed.

Lemma filter_by_color_spec_witness :
  exists circle rectangle result,
    Circle_init 1 "red" = Ok circle
    /\ Rectangle_init 2 2 "blue" = Ok rectangle
    /\ filter_by_color {| shapes := [circle; rectangle] |} "red" = Ok result
    /\ (In circle result <->
        In circle [circle; rectangle] /\ color (base circle) = "red"%string)
    /\ Subsequence [circle] result.
Proof.
  exists (Circle (Shape_init "Circle" "red") 1),
         (Rectangle (Shape_init "Rectangle" "blue") 2 2).
  destruct (filter_by_color_spec
              {| shapes := [Circle (Shape_init "Circle" "red") 1;
                            Rectangle (Shape_init "Rectangle" "blue") 2 2] |}
              "red") as (result & E & _ & Hin & Hmax & _).
  exists result.
  split; [apply enhanced_Circle_init_ok; lra |].
  split; [apply enhanced_Rectangle_init_ok; lra |].
  split; [exact E |].
  split; [apply Hin |].
  apply Hmax.
  - simpl. apply sub_keep, sub_drop, sub_done.
  - constructor; [reflexivity | constructor].
Defined.

(** [filter_by_color("red")] over [Circle(1, "red")], [Rectangle(2, 2,
    "blue")] is the circle alone. *)
Example filter_by_color_red :
  filter_by_color
    {| shapes := [Circle (Shape_init "Circle" "red") 1;
                  Rectangle (Shape_init "Rectangle" "blue") 2 2] |} "red"
  = Ok [Circle (Shape_init "Circle" "red") 1].
Proof. reflexivity. Qed.

End EnhancedCollection.

Section EnhancedLargest.
Import Py Spec EnhancedShapes.
Local Open Scope R_scope.

Lemma get_largest_shape_cons (s0 : Shape) (l : list Shape) :
  get_largest_shape {| shapes := s0 :: l |} = Ok (Some (max_loop area l s0)).
Proof. reflexivity. Qed.



(** [get_largest_shape] over [Circle(1)], [Rectangle(10,10)] is the
    rectangle: its area 100 exceeds [PI]. *)
Example largest_is_rectangle :
  get_largest_shape
    {| shapes := [Circle (Shape_init "Circle" "white") 1;
                  Rectangle (Shape_init "Rectangle" "white") 10 10] |}
  = Ok (Some (Rectangle (Shape_init "Rectangle" "white") 10 10)).
Proof.
  rewrite get_largest_shape_cons. simpl.
  destruct (Rlt_dec (PI * (1 * (1 * 1))) (10 * 10)) as [_ | H]; [reflexivity |].
  pose proof PI_4. lra.
Qed.

(** Of two shapes of the same area the one added first is returned. *)
Example largest_tie_first :
  get_largest_shape
    {| shapes := [Rectangle (Shape_init "Rectangle" "red") 2 3;
                  Rectangle (Shape_init "Rectangle" "blue") 3 2;
                  Rectangle (Shape_init "Rectangle" "green") 1 1] |}
  = Ok (Some (Rectangle (Shape_init "Rectangle" "red") 2 3)).
Proof.
  rewrite get_largest_shape_cons. simpl.
  destruct (Rlt_dec (2 * 3) (3 * 2)); [lra |].
  destruct (Rlt_dec (2 * 3) (1 * 1)); [lra | reflexivity].
Qed.

(** The first shape of greatest area is the only one the description of C3
    fits. *)
Lemma get_largest_shape_unique (self : ShapeCalculator) (s t : Shape) :
  get_largest_shape self = Ok (Some s) ->
  first_maximal area (shapes self) t ->
  s = t.
Proof.
  intros E Ht. destruct self as [[| s0 l]]; simpl in *.
  - destruct Ht as ([| ? ?] & ? & F & _); discriminate F.
  - rewrite get_largest_shape_cons in E. injection E as <-.
    destruct (max_loop_first area l s0) as (l1 & l2 & F1 & H1 & H2).
    destruct Ht as (k1 & k2 & F2 & K1 & K2).
    rewrite F1 in F2.
    now destruct (first_maximal_unique area _ _ _ _ _ _ F2 H1 H2 K1 K2) as (_ & ? & _).
Qed.

End EnhancedLargest.

(** ** shapes.py: statistics *)

Section Statistics.
Import Py Spec Shapes.
Local Open Scope R_scope.
Local Open Scope string_scope.



Lemma get_statistics_cons (s0 : Shape) (l : list Shape) :
  let shapes := s0 :: l in
  let areas := map area shapes in
  let perimeters := map perimeter shapes in
  get_statistics {| shapes := shapes |}
  = Ok [("count", PyInt (py_len shapes));
        ("total_area", PyFloat (py_sum areas));
        ("total_perimeter", PyFloat (py_sum perimeters));
        ("average_area", PyFloat (py_sum areas / IZR (py_len shapes)));
        ("average_perimeter", PyFloat (py_sum perimeters / IZR (py_len shapes)));
        ("max_area", PyFloat (max_loop (fun a => a) (map area l) (area s0)));
        ("min_area", PyFloat (min_loop (map area l) (area s0)))].
Proof.
  intros shapes areas perimeters.
  unfold get_statistics. cbn [Shapes.shapes is_empty shapes].
  fold shapes. fold areas. fold perimeters.
  assert (Hlen : py_len shapes <> 0%Z) by (unfold py_len, shapes; simpl; lia).
  unfold areas at 2, perimeters at 2. rewrite !py_len_map.
  rewrite !truediv_ok by assumption.
  reflexivity.
Qed.


(** [get_statistics] over [Rectangle(2,2)], [Rectangle(4,4)]. *)
Example get_statistics_two_squares :
  get_statistics {| shapes := [Rectangle "Rectangle" 2 2;
                               Rectangle "Rectangle" 4 4] |}
  = Ok [("count", PyInt 2); ("total_area", PyFloat 20);
        ("total_perimeter", PyFloat 24);
        ("average_area", PyFloat 10); ("average_perimeter", PyFloat 12);
        ("max_area", PyFloat 16); ("min_area", PyFloat 4)].
Proof.
  rewrite get_statistics_cons. unfold py_len, py_sum. simpl.
  destruct (Rlt_dec (2 * 2) (4 * 4)); [| lra].
  destruct (Rlt_dec (4 * 4) (2 * 2)); [lra |].
  repeat (f_equal; try lra).
Qed.


End Statistics.

(** ** No aggregation raises *)

Section Aggregation.
Import Py Spec.
Local Open Scope R_scope.



(** [create_sample_shapes] of enhanced-shapes.py returns four shapes. *)
Lemma create_sample_shapes_ok :
  EnhancedShapes.create_sample_shapes
  = Ok [EnhancedShapes.Circle (EnhancedShapes.Shape_init "Circle" "red") 5;
        EnhancedShapes.Rectangle (EnhancedShapes.Shape_init "Rectangle" "blue") 4 6;
        EnhancedShapes.Circle (EnhancedShapes.Shape_init "Circle" "green") 3;
        EnhancedShapes.Rectangle (EnhancedShapes.Shape_init "Rectangle" "red") 2 8].
Proof.
  unfold EnhancedShapes.create_sample_shapes.
  rewrite (enhanced_Circle_init_ok 5) by lra. cbn [bind].
  rewrite (enhanced_Rectangle_init_ok 4 6) by lra. cbn [bind].
  rewrite (enhanced_Circle_init_ok 3) by lra. cbn [bind].
  rewrite (enhanced_Rectangle_init_ok 2 8) by lra. reflexivity.
Qed.




End Aggregation.

(** ** The string rendering *)

Section Rendering.
Import Py Spec.
Local Open Scope R_scope.


Lemma Int_part_IZR (z : Z) : Int_part (IZR z) = z.
Proof. symmetry. apply Int_part_spec. lra. Qed.


Lemma round_half_even_IZR (z : Z) : round_half_even (IZR z) = z.
Proof.
  unfold round_half_even. rewrite Int_part_IZR.
  destruct (Rlt_dec (IZR z - IZR z) (1 / 2)); [reflexivity | lra].
Qed.

(** The rounded value is within one half of the argument. *)
Lemma round_half_even_error (y : R) :
  Rabs (IZR (round_half_even y) - y) <= 1 / 2.
Proof.
  destruct (base_Int_part y) as [H1 H2]. unfold round_half_even.
  destruct (Rlt_dec (y - IZR (Int_part y)) (1 / 2)) as [Hlt | Hge].
  - apply Rabs_le. lra.
  - assert (Rabs (IZR (Int_part y + 1) - y) <= 1 / 2)
      by (rewrite plus_IZR; apply Rabs_le; lra).
    destruct (Rlt_dec (1 / 2) (y - IZR (Int_part y))); [assumption |].
    destruct (Z.even (Int_part y)); [apply Rabs_le; lra | assumption].
Qed.



Lemma format_2f_hundredths (x : R) (n : Z) :
  0 <= x -> x * 100 = IZR n ->
  format_2f x
  = (decimal (n / 100) ++ "." ++ decimal (n mod 100 / 10) ++ decimal (n mod 10))%string.
Proof.
  intros Hx E. unfold format_2f.
  rewrite Rabs_pos_eq, E, round_half_even_IZR by assumption.
  destruct (Rlt_dec x 0); [lra | reflexivity].
Qed.

Example format_2f_15 : format_2f (5 * 3) = "15.00"%string.
Proof. rewrite (format_2f_hundredths _ 1500); [reflexivity | lra | lra]. Qed.


Example enhanced_Rectangle_str :
  EnhancedShapes.Shape_str
    (EnhancedShapes.Rectangle
       (EnhancedShapes.Shape_init "Rectangle" EnhancedShapes.default_color) 5 3)
  = "Rectangle (white): area=15.00, perimeter=16.00"%string.
Proof.
  unfold EnhancedShapes.Shape_str. simpl.
  rewrite (format_2f_hundredths (5 * 3) 1500) by lra.
  rewrite (format_2f_hundredths (2 * (5 + 3)) 1600) by lra.
  reflexivity.
Qed.


End Rendering.


(** * Further properties of the code *)

(** ** MathUtils.fibonacci *)

Section Fibonacci.
Import Py Spec Shapes.MathUtils.
Local Open Scope Z_scope.

Lemma fib_SS (k : nat) : fib (S (S k)) = fib (S k) + fib k.
Proof. reflexivity. Qed.

Lemma fib_nonneg (k : nat) : 0 <= fib k /\ 0 <= fib (S k).
Proof.
  induction k as [| k [IH1 IH2]].
  - simpl. lia.
  - split; [assumption |]. rewrite fib_SS. lia.
Qed.

Lemma fib_le_S (k : nat) : fib k <= fib (S k).
Proof.
  destruct k as [| k]; [simpl; lia |].
  rewrite fib_SS. pose proof (fib_nonneg k). lia.
Qed.

Lemma fib_mono (i j : nat) : (i <= j)%nat -> fib i <= fib j.
Proof.
  induction 1 as [| j _ IH]; [lia |].
  pose proof (fib_le_S j). lia.
Qed.

Lemma py_index_nonneg {A : Type} (l : list A) (i : nat) :
  py_index l (Z.of_nat i) = nth_error l i.
Proof.
  unfold py_index. destruct (Z.ltb_spec (Z.of_nat i) 0); [lia |].
  now rewrite Nat2Z.id.
Qed.

Lemma nth_error_fibs (k i : nat) :
  (i < k)%nat -> nth_error (map fib (seq 0 k)) i = Some (fib i).
Proof.
  intros H. rewrite nth_error_map, nth_error_seq.
  destruct (Nat.ltb_spec i k); [reflexivity | lia].
Qed.

(** The invariant of the loop: before the iteration with index [k] the list
    holds the first [k] Fibonacci numbers. *)
Lemma fib_loop_invariant (count k : nat) :
  (2 <= k)%nat ->
  fib_loop (range_from (Z.of_nat k) count) (map fib (seq 0 k))
  = Some (map fib (seq 0 (k + count))).
Proof.
  revert k. induction count as [| count IH]; intros k Hk; simpl.
  - now rewrite Nat.add_0_r.
  - destruct k as [| [| k]]; try lia.
    replace (Z.of_nat (S (S k)) - 1) with (Z.of_nat (S k)) by lia.
    replace (Z.of_nat (S (S k)) - 2) with (Z.of_nat k) by lia.
    rewrite !py_index_nonneg, !nth_error_fibs by lia.
    rewrite <- fib_SS.
    replace (map fib (seq 0 (S (S k))) ++ [fib (S (S k))])
      with (map fib (seq 0 (S (S (S k)))))
      by (rewrite (seq_S (S (S k))), map_app; reflexivity).
    replace (Z.of_nat (S (S k)) + 1) with (Z.of_nat (S (S (S k)))) by lia.
    rewrite IH by lia. do 3 f_equal. lia.
Qed.

Lemma fibonacci_fibs (n : Z) :
  fibonacci n = Some (map fib (seq 0 (Z.to_nat n))).
Proof.
  unfold fibonacci.
  destruct (Z.leb_spec n 0) as [H0 | H0].
  - replace (Z.to_nat n) with 0%nat by lia. reflexivity.
  - destruct (Z.eqb_spec n 1) as [-> | H1]; [reflexivity |].
    destruct (Z.eqb_spec n 2) as [-> | H2]; [reflexivity |].
    unfold py_range.
    change [0; 1] with (map fib (seq 0 2)).
    change 2 with (Z.of_nat 2) at 1.
    rewrite fib_loop_invariant by lia.
    do 3 f_equal. lia.
Qed.

(** X1: for every integer [n], [fibonacci n] returns, without an index out
    of range, the list of the first [max 0 n] Fibonacci numbers 0, 1, 1, 2,
    3, ... in order; the list is empty exactly when [n <= 0]. *)
Theorem fibonacci_spec (n : Z) :
  exists l,
    fibonacci n = Some l
    /\ Z.of_nat (List.length l) = Z.max 0 n
    /\ l = map fib (seq 0 (List.length l))
    /\ (l = [] <-> n <= 0).
Proof.
  exists (map fib (seq 0 (Z.to_nat n))).
  split; [apply fibonacci_fibs |].
  rewrite length_map, length_seq.
  split; [lia |]. split; [reflexivity |].
  split.
  - intros E. apply (f_equal (@List.length Z)) in E.
    rewrite length_map, length_seq in E. simpl in E. lia.
  - intros H. replace (Z.to_nat n) with 0%nat by lia. reflexivity.
Qed.

Lemma firstn_seq_min (k start len : nat) :
  firstn k (seq start len) = seq start (Nat.min k len).
Proof.
  revert start len. induction k as [| k IH]; intros start [| len]; simpl;
    try reflexivity.
  now rewrite IH.
Qed.

(** X2: a shorter call gives an initial segment of a longer one: for
    [m <= n], [fibonacci m] is the list of the first [m] elements of
    [fibonacci n]. *)
Theorem fibonacci_prefix (m n : Z) :
  m <= n ->
  exists lm ln,
    fibonacci m = Some lm /\ fibonacci n = Some ln
    /\ lm = firstn (Z.to_nat m) ln.
Proof.
  intros H. do 2 eexists.
  split; [apply fibonacci_fibs |]. split; [apply fibonacci_fibs |].
  rewrite firstn_map, firstn_seq_min. do 2 f_equal. lia.
Qed.

Lemma fibonacci_prefix_witness :
  exists lm ln,
    fibonacci 3 = Some lm /\ fibonacci 6 = Some ln
    /\ lm = firstn (Z.to_nat 3) ln.
Proof. apply (fibonacci_prefix 3 6). lia. Defined.

(** X3: the numbers [fibonacci] returns are non-negative and in
    non-decreasing order. *)
Theorem fibonacci_sorted (n : Z) (l : list Z) :
  fibonacci n = Some l ->
  Forall (fun x => 0 <= x) l
  /\ forall i j x y,
       (i <= j)%nat -> nth_error l i = Some x -> nth_error l j = Some y ->
       x <= y.
Proof.
  rewrite fibonacci_fibs. intros E. injection E as <-. split.
  - apply Forall_forall. intros x Hx. apply in_map_iff in Hx.
    destruct Hx as (k & <- & _). apply fib_nonneg.
  - intros i j x y Hij Hi Hj.
    assert (Hjn : (j < Z.to_nat n)%nat).
    { assert (Hs : nth_error (map fib (seq 0 (Z.to_nat n))) j <> None)
        by congruence.
      apply nth_error_Some in Hs.
      now rewrite length_map, length_seq in Hs. }
    rewrite nth_error_fibs in Hi, Hj by lia.
    injection Hi as <-. injection Hj as <-. now apply fib_mono.
Qed.

Lemma fibonacci_sorted_witness :
  fibonacci 6 = Some [0; 1; 1; 2; 3; 5]
  /\ Forall (fun x => 0 <= x) [0; 1; 1; 2; 3; 5]
  /\ 1 <= 3.
Proof.
  assert (E : fibonacci 6 = Some [0; 1; 1; 2; 3; 5]) by reflexivity.
  destruct (fibonacci_sorted 6 _ E) as [Hpos Hle].
  split; [exact E |]. split; [exact Hpos |].
  apply (Hle 2%nat 4%nat); [lia | reflexivity | reflexivity].
Defined.

Example fibonacci_10 :
  fibonacci 10 = Some [0; 1; 1; 2; 3; 5; 8; 13; 21; 34]
  /\ fibonacci 1 = Some [0] /\ fibonacci 0 = Some [] /\ fibonacci (-3) = Some [].
Proof. repeat split; reflexivity. Qed.

End Fibonacci.

(** ** MathUtils.gcd, continued *)

Section GcdAlgebra.
Import Shapes.MathUtils.
Local Open Scope Z_scope.

(** X4: the result of [gcd] does not depend on the order of its arguments
    nor on their signs. *)
Theorem gcd_symmetric_signs (a b : Z) :
  gcd a b = gcd b a
  /\ gcd (- a) b = gcd a b
  /\ gcd a (- b) = gcd a b
  /\ gcd (Z.abs a) (Z.abs b) = gcd a b.
Proof.
  rewrite !gcd_Zgcd. split; [apply Z.gcd_comm |].
  split; [apply Z.gcd_opp_l |]. split; [apply Z.gcd_opp_r |].
  now rewrite Z.gcd_abs_l, Z.gcd_abs_r.
Qed.

(** X5: with a zero argument [gcd] returns the absolute value of the other
    argument, so [gcd 0 0 = 0]; [gcd a a] is [|a|]; with an argument 1 the
    result is 1. *)
Theorem gcd_zero_one (a b : Z) :
  gcd a 0 = Z.abs a
  /\ gcd 0 b = Z.abs b
  /\ gcd a a = Z.abs a
  /\ gcd a 1 = 1
  /\ gcd 1 b = 1.
Proof.
  rewrite !gcd_Zgcd. split; [apply Z.gcd_0_r |]. split; [apply Z.gcd_0_l |].
  split; [apply Z.gcd_diag |]. split; [apply Z.gcd_1_r | apply Z.gcd_1_l].
Qed.

(** X6: a common factor comes out of [gcd] in absolute value, and the result
    is an integer combination of the arguments. *)
Theorem gcd_scale_bezout (k a b : Z) :
  gcd (k * a) (k * b) = Z.abs k * gcd a b
  /\ exists u v, u * a + v * b = gcd a b.
Proof.
  rewrite !gcd_Zgcd. split; [apply Z.gcd_mul_mono_l |].
  now apply Z.gcd_bezout.
Qed.

(** X7: unless both arguments are 0, dividing them (with [//]) by their
    [gcd] leaves two numbers whose [gcd] is 1, and the divisions are
    exact. *)
Theorem gcd_reduce (a b : Z) :
  (a, b) <> (0, 0) ->
  let g := gcd a b in
  gcd (a / g) (b / g) = 1 /\ a = g * (a / g) /\ b = g * (b / g).
Proof.
  intros H g.
  assert (Hg : g <> 0).
  { unfold g. intros E. apply gcd_zero_iff in E. destruct E; subst.
    now contradict H. }
  assert (Eg : g = Z.gcd a b) by apply gcd_Zgcd.
  split; [rewrite gcd_Zgcd; now apply Z.gcd_div_gcd |].
  split.
  - apply Z_div_exact_full_2; [assumption |].
    apply Z.mod_divide; [assumption |]. rewrite Eg. apply Z.gcd_divide_l.
  - apply Z_div_exact_full_2; [assumption |].
    apply Z.mod_divide; [assumption |]. rewrite Eg. apply Z.gcd_divide_r.
Qed.

Lemma gcd_reduce_witness :
  (48, -18) <> (0, 0)
  /\ gcd (48 / gcd 48 (-18)) (-18 / gcd 48 (-18)) = 1.
Proof.
  assert (H : (48, -18) <> (0, 0)) by discriminate.
  split; [exact H |]. apply (gcd_reduce 48 (-18) H).
Defined.

End GcdAlgebra.

(** ** enhanced-shapes.py: how the operations compose *)

Section EnhancedComposition.
Import Py Spec EnhancedShapes.
Local Open Scope R_scope.



Lemma enhanced_add_all_app (l : list Shape) (self : ShapeCalculator) :
  add_all self l = Ok {| shapes := shapes self ++ l |}.
Proof.
  revert self. induction l as [| shape l IH]; intros [l0]; simpl.
  - now rewrite app_nil_r.
  - rewrite IH. cbn [shapes]. now rewrite <- app_assoc.
Qed.

Lemma shapes_add_all_app (l : list Shapes.Shape) (self : Shapes.ShapeCalculator) :
  Shapes.add_all self l = Ok {| Shapes.shapes := Shapes.shapes self ++ l |}.
Proof.
  revert self. induction l as [| shape l IH]; intros [l0]; simpl.
  - now rewrite app_nil_r.
  - rewrite IH. cbn [Shapes.shapes]. now rewrite <- app_assoc.
Qed.

(** X9: adding the shapes of a list one after the other, as the main blocks
    of both programs do, never fails and leaves the calculator holding its
    old shapes followed by the list, in the order of the list; from a new
    calculator the result holds exactly the list. *)
Theorem add_all_spec
  (self : ShapeCalculator) (l : list Shape)
  (other : Shapes.ShapeCalculator) (k : list Shapes.Shape) :
  add_all self l = Ok {| shapes := shapes self ++ l |}
  /\ add_all ShapeCalculator_init l = Ok {| shapes := l |}
  /\ Shapes.add_all other k = Ok {| Shapes.shapes := Shapes.shapes other ++ k |}
  /\ Shapes.add_all Shapes.ShapeCalculator_init k = Ok {| Shapes.shapes := k |}.
Proof.
  split; [apply enhanced_add_all_app |].
  split; [apply enhanced_add_all_app |].
  split; apply shapes_add_all_app.
Qed.

Lemma filter_color_app (c : string) (l1 l2 : list Shape) :
  filter (fun shape => String.eqb (color (base shape)) c) (l1 ++ l2)
  = filter (fun shape => String.eqb (color (base shape)) c) l1
    ++ filter (fun shape => String.eqb (color (base shape)) c) l2.
Proof. apply filter_app. Qed.

(** X10: after [add_shape], [filter_by_color c] returns what it returned
    before, followed by the new shape when its colour is [c] and unchanged
    otherwise. *)
Theorem filter_by_color_add_shape
  (self : ShapeCalculator) (shape : Shape) (c : string) :
  exists self' before after,
    add_shape self shape = Ok self'
    /\ filter_by_color self c = Ok before
    /\ filter_by_color self' c = Ok after
    /\ (color (base shape) = c -> after = before ++ [shape])
    /\ (color (base shape) <> c -> after = before).
Proof.
  do 3 eexists.
  split; [reflexivity |]. split; [reflexivity |]. split; [reflexivity |].
  cbn [shapes]. rewrite filter_color_app. simpl.
  split; intros H.
  - apply String.eqb_eq in H. now rewrite H.
  - apply String.eqb_neq in H. rewrite H. apply app_nil_r.
Qed.

Lemma filter_by_color_add_shape_witness :
  let red := Circle (Shape_init "Circle" "red") 1 in
  let blue := Rectangle (Shape_init "Rectangle" "blue") 2 2 in
  exists self' before after,
    add_shape {| shapes := [red] |} blue = Ok self'
    /\ filter_by_color {| shapes := [red] |} "blue" = Ok before
    /\ filter_by_color self' "blue" = Ok after
    /\ after = before ++ [blue]
    /\ exists before' after',
         filter_by_color {| shapes := [red] |} "red" = Ok before'
         /\ filter_by_color self' "red" = Ok after'
         /\ after' = before'.
Proof.
  intros red blue.
  destruct (filter_by_color_add_shape {| shapes := [red] |} blue "blue")
    as (self' & before & after & E1 & E2 & E3 & Hsame & _).
  destruct (filter_by_color_add_shape {| shapes := [red] |} blue "red")
    as (self2 & before' & after' & F1 & F2 & F3 & _ & Hdiff).
  exists self', before, after.
  split; [exact E1 |]. split; [exact E2 |]. split; [exact E3 |].
  split; [apply Hsame; reflexivity |].
  exists before', after'.
  split; [exact F2 |].
  assert (self2 = self') by congruence. subst self2.
  split; [exact F3 |]. apply Hdiff. simpl. discriminate.
Defined.

(** X11: filtering what [filter_by_color c] returned again by [c] changes
    nothing, and filtering it by another colour leaves nothing. *)
Theorem filter_by_color_twice
  (self : ShapeCalculator) (c c' : string) (result : list Shape) :
  filter_by_color self c = Ok result ->
  filter_by_color {| shapes := result |} c = Ok result
  /\ (c' <> c -> filter_by_color {| shapes := result |} c' = Ok []).
Proof.
  unfold filter_by_color, ret. cbn [shapes]. intros E. injection E as <-.
  split.
  - f_equal. induction (shapes self) as [| s l IH]; simpl; [reflexivity |].
    destruct (String.eqb (color (base s)) c) eqn:Es; [| exact IH].
    simpl. now rewrite Es, IH.
  - intros Hc. f_equal.
    induction (shapes self) as [| s l IH]; simpl; [reflexivity |].
    destruct (String.eqb (color (base s)) c) eqn:Es; [| exact IH].
    simpl. apply String.eqb_eq in Es.
    destruct (String.eqb_spec (color (base s)) c'); [congruence | exact IH].
Qed.

Lemma filter_by_color_twice_witness :
  let red := Circle (Shape_init "Circle" "red") 1 in
  let blue := Rectangle (Shape_init "Rectangle" "blue") 2 2 in
  filter_by_color {| shapes := [red] |} "red" = Ok [red]
  /\ filter_by_color {| shapes := [red] |} "blue" = Ok [].
Proof.
  intros red blue.
  assert (E : filter_by_color {| shapes := [red; blue] |} "red" = Ok [red])
    by reflexivity.
  destruct (filter_by_color_twice _ "red" "blue" _ E) as [H1 H2].
  split; [exact H1 | apply H2; discriminate].
Defined.

End EnhancedComposition.

Section EnhancedLargestComposition.
Import Py Spec EnhancedShapes.
Local Open Scope R_scope.













End EnhancedLargestComposition.

Section EnhancedShapeMethods.
Import Py Spec EnhancedShapes.
Local Open Scope R_scope.









End EnhancedShapeMethods.

(** ** shapes.py: statistics, continued *)

Section StatisticsComposition.
Import Py Spec Shapes.
Local Open Scope R_scope.
Local Open Scope string_scope.






(** On one shape all four of average, greatest and least area and the total
    are the area of the shape. *)
Example get_statistics_single (shape : Shape) :
  get_statistics {| shapes := [shape] |}
  = Ok [("count", PyInt 1); ("total_area", PyFloat (0 + area shape));
        ("total_perimeter", PyFloat (0 + perimeter shape));
        ("average_area", PyFloat ((0 + area shape) / 1));
        ("average_perimeter", PyFloat ((0 + perimeter shape) / 1));
        ("max_area", PyFloat (area shape));
        ("min_area", PyFloat (area shape))].
Proof. reflexivity. Qed.

End StatisticsComposition.

(** ** The two programs side by side *)

Section TwoPrograms.
Import Py Spec.
Local Open Scope R_scope.

(** X20: shapes.py computes the same area and perimeter as enhanced-shapes.py
    for a shape of the same dimensions, accepts every argument the
    validating constructors accept, and its totals over a collection are
    those of enhanced-shapes.py. *)
Theorem programs_agree
  (self : EnhancedShapes.ShapeCalculator) (radius width height : R) (c : string) :
  (forall s, Shapes.area (plain s) = EnhancedShapes.area s
             /\ Shapes.perimeter (plain s) = EnhancedShapes.perimeter s)
  /\ (forall s, EnhancedShapes.Circle_init radius c = Ok s ->
                Shapes.Circle_init radius = Ok (plain s))
  /\ (forall s, EnhancedShapes.Rectangle_init width height c = Ok s ->
                Shapes.Rectangle_init width height = Ok (plain s))
  /\ Shapes.total_area
       {| Shapes.shapes := map plain (EnhancedShapes.shapes self) |}
     = EnhancedShapes.total_area self
  /\ Shapes.total_perimeter
       {| Shapes.shapes := map plain (EnhancedShapes.shapes self) |}
     = EnhancedShapes.total_perimeter self.
Proof.
  assert (Hs : forall s, Shapes.area (plain s) = EnhancedShapes.area s
                         /\ Shapes.perimeter (plain s) = EnhancedShapes.perimeter s)
    by (intros [b r | b w h]; split; reflexivity).
  split; [exact Hs |].
  split.
  { intros s H. unfold EnhancedShapes.Circle_init in H.
    destruct (Rleb radius 0); [discriminate |]. injection H as <-. reflexivity. }
  split.
  { intros s H. unfold EnhancedShapes.Rectangle_init in H.
    destruct (Rleb width 0 || Rleb height 0); [discriminate |].
    injection H as <-. reflexivity. }
  unfold Shapes.total_area, Shapes.total_perimeter,
    EnhancedShapes.total_area, EnhancedShapes.total_perimeter, ret.
  cbn [Shapes.shapes]. rewrite !map_map.
  split; f_equal; f_equal; apply map_ext; intros s; apply Hs.
Qed.

Lemma programs_agree_witness :
  Shapes.Circle_init 5
  = Ok (plain (EnhancedShapes.Circle (EnhancedShapes.Shape_init "Circle" "red") 5)).
Proof.
  destruct (programs_agree EnhancedShapes.ShapeCalculator_init 5 4 6 "red")
    as (_ & H & _).
  apply H. apply enhanced_Circle_init_ok. lra.
Defined.

End TwoPrograms.
